(** * Verification of the Auroville events chatbot retrieval pipeline

    Shallow embedding of [search_auroville_events]
    (src/vectordb_filtering_agent.py) and of [streaming_chat] (src/app.py).
    Python strings are modelled as Rocq [string]s over ASCII; Python's
    [datetime.strptime] with the format ["%B %d, %Y"] is modelled after the
    regular expression that CPython's [_strptime] compiles for it. *)

From Stdlib Require Import ZArith List Ascii String Bool Lia.
From Stdlib Require Import Numbers.DecimalString.
Import ListNotations.
Open Scope string_scope.

(* ------------------------------------------------------------------ *)
(** ** Python strings *)

Definition ascii_lower (c : ascii) : ascii :=
  let n := nat_of_ascii c in
  if (65 <=? n)%nat && (n <=? 90)%nat then ascii_of_nat (n + 32) else c.

(** [str.lower] (on ASCII text). *)
Fixpoint py_lower (s : string) : string :=
  match s with
  | EmptyString => EmptyString
  | String c s' => String (ascii_lower c) (py_lower s')
  end.

(** Python truthiness of a [str]: only the empty string is falsy. *)
Definition truthy (s : string) : bool :=
  match s with EmptyString => false | _ => true end.

(** Truthiness of an [Optional[str]]: [None] and [""] are falsy. *)
Definition opt_truthy (o : option string) : bool :=
  match o with Some s => truthy s | None => false end.

(** [f"{n}"] for a Python [int]. *)
Definition py_str_Z (z : Z) : string := NilEmpty.string_of_int (Z.to_int z).
Definition py_str_nat (n : nat) : string := NilEmpty.string_of_uint (Nat.to_uint n).

(* ------------------------------------------------------------------ *)
(** ** Exceptions and a small logging/exception monad *)

Inductive exn :=
| ValueError (msg : string)
| ExternalError (msg : string).

(** [str(e)] *)
Definition exn_str (e : exn) : string :=
  match e with ValueError m => m | ExternalError m => m end.

Inductive result (A : Type) :=
| Ok (a : A)
| Raise (e : exn).
Arguments Ok {A} a.
Arguments Raise {A} e.

(** A condition [{key: {"$eq": value}}] as the pair [(key, value)]. *)
Definition condition := (string * string)%type.

(** A value of the Chroma filter dict: either [{"$eq": v}] or the list of
    conditions stored under ["$or"]. *)
Inductive fvalue :=
| FEq (v : string)
| FList (conds : list condition).

Definition chroma_dict := list (string * fvalue).

(** Log records emitted through [logger]. *)
Inductive log_entry :=
| LogInfo (msg : string)
| LogWarning (msg : string)
| LogFilter (f : chroma_dict).

(** Computations that append log records and may raise. *)
Definition M (A : Type) := list log_entry -> list log_entry * result A.

Definition ret {A} (a : A) : M A := fun l => (l, Ok a).
Definition bind {A B} (m : M A) (k : A -> M B) : M B :=
  fun l => match m l with
           | (l', Ok a) => k a l'
           | (l', Raise e) => (l', Raise e)
           end.
Definition raise {A} (e : exn) : M A := fun l => (l, Raise e).
Definition lift {A} (r : result A) : M A := fun l => (l, r).
Definition info (msg : string) : M unit := fun l => ((l ++ [LogInfo msg])%list, Ok tt).
Definition warning (msg : string) : M unit := fun l => ((l ++ [LogWarning msg])%list, Ok tt).
Definition log_filter (f : chroma_dict) : M unit := fun l => ((l ++ [LogFilter f])%list, Ok tt).

(** [try: body except ValueError: handler] *)
Definition try_value_error {A} (body : M A) (handler : string -> M A) : M A :=
  fun l => match body l with
           | (l', Raise (ValueError m)) => handler m l'
           | r => r
           end.

Notation "x <- m ;; k" := (bind m (fun x => k))
  (at level 61, m at next level, right associativity).
Notation "m ;;; k" := (bind m (fun _ : unit => k))
  (at level 61, right associativity).

(* ------------------------------------------------------------------ *)
(** ** Python dicts with insertion order *)

(** [d[k] = v]: an existing key keeps its position, a new key is appended. *)
Fixpoint dict_set {V} (d : list (string * V)) (k : string) (v : V)
  : list (string * V) :=
  match d with
  | [] => [(k, v)]
  | (k', v') :: d' =>
      if String.eqb k k' then (k, v) :: d' else (k', v') :: dict_set d' k v
  end.

Fixpoint dict_get {V} (d : list (string * V)) (k : string) : option V :=
  match d with
  | [] => None
  | (k', v') :: d' => if String.eqb k k' then Some v' else dict_get d' k
  end.

(* ------------------------------------------------------------------ *)
(** ** [datetime.strptime(s, "%B %d, %Y")]

    CPython compiles the format to the case-insensitive regular expression
    [(?P<B>september|february|...|may)\s+(?P<d>3[01]|[12]\d|0[1-9]|[1-9]| [1-9]),\s+(?P<Y>\d\d\d\d)]
    (month names sorted by decreasing length), takes the first match that
    [re.match] finds by backtracking, raises [ValueError] when there is none or
    when data remains after it, and then builds [datetime.date(Y, m, d)], which
    raises [ValueError] for an impossible date. A backtracking match is
    modelled as the list of successes in the order the regex engine tries
    them. *)

Definition parser (A : Type) := string -> list (A * string).

Definition p_bind {A B} (p : parser A) (k : A -> parser B) : parser B :=
  fun s => flat_map (fun '(a, rest) => k a rest) (p s).

Definition p_alt {A} (ps : list (parser A)) : parser A :=
  fun s => flat_map (fun p => p s) ps.

Definition is_ws (c : ascii) : bool :=
  let n := nat_of_ascii c in
  ((9 <=? n)%nat && (n <=? 13)%nat) || ((28 <=? n)%nat && (n <=? 32)%nat).

Definition digit_val (c : ascii) : option Z :=
  let n := nat_of_ascii c in
  if (48 <=? n)%nat && (n <=? 57)%nat then Some (Z.of_nat (n - 48)) else None.

(** Case-insensitive literal prefix. *)
Fixpoint p_word_ci (w : string) : parser unit :=
  fun s =>
    match w, s with
    | EmptyString, _ => [(tt, s)]
    | String a w', String c s' =>
        if Ascii.eqb (ascii_lower c) (ascii_lower a) then p_word_ci w' s' else []
    | String _ _, EmptyString => []
    end.

Definition p_char (a : ascii) : parser unit :=
  fun s => match s with
           | String c s' => if Ascii.eqb c a then [(tt, s')] else []
           | EmptyString => []
           end.

(** [\s+], greedy: the longest run first, then the shorter ones. *)
Fixpoint p_ws_plus (s : string) : list (unit * string) :=
  match s with
  | String c s' =>
      if is_ws c then
        (match s' with
         | String c' _ => if is_ws c' then p_ws_plus s' else []
         | EmptyString => []
         end) ++ [(tt, s')]
      else []
  | EmptyString => []
  end.

(** One character whose digit value satisfies [ok]. *)
Definition p_digit (ok : Z -> bool) : parser Z :=
  fun s => match s with
           | String c s' =>
               match digit_val c with
               | Some v => if ok v then [(v, s')] else []
               | None => []
               end
           | EmptyString => []
           end.

Definition any_digit (v : Z) : bool := true.
Definition in_range (lo hi v : Z) : bool := (lo <=? v)%Z && (v <=? hi)%Z.

Definition two_digits (ok1 ok2 : Z -> bool) : parser Z :=
  p_bind (p_digit ok1) (fun a => p_bind (p_digit ok2) (fun b s => [((10 * a + b)%Z, s)])).

(** [3[01]|[12]\d|0[1-9]|[1-9]| [1-9]] *)
Definition p_day : parser Z :=
  p_alt [ two_digits (in_range 3 3) (in_range 0 1);
          two_digits (in_range 1 2) any_digit;
          two_digits (in_range 0 0) (in_range 1 9);
          p_digit (in_range 1 9);
          p_bind (p_char " "%char) (fun _ => p_digit (in_range 1 9)) ].

(** [\d\d\d\d] *)
Definition p_year : parser Z :=
  p_bind (two_digits any_digit any_digit)
    (fun a => p_bind (two_digits any_digit any_digit)
       (fun b s => [((100 * a + b)%Z, s)])).

(** [calendar.month_name], in the order of the compiled alternation. *)
Definition month_alternatives : list (string * Z) :=
  [("september", 9%Z); ("february", 2%Z); ("november", 11%Z); ("december", 12%Z);
   ("january", 1%Z); ("october", 10%Z); ("august", 8%Z); ("march", 3%Z);
   ("april", 4%Z); ("june", 6%Z); ("july", 7%Z); ("may", 5%Z)].

Definition p_month : parser Z :=
  p_alt (map (fun '(name, m) => p_bind (p_word_ci name) (fun _ s => [(m, s)]))
             month_alternatives).

Record date := mkdate { year : Z; month : Z; day : Z }.

Definition p_format : parser date :=
  p_bind p_month (fun m =>
  p_bind p_ws_plus (fun _ =>
  p_bind p_day (fun d =>
  p_bind (p_char ","%char) (fun _ =>
  p_bind p_ws_plus (fun _ =>
  p_bind p_year (fun y s => [(mkdate y m d, s)])))))).

Definition is_leap (y : Z) : bool :=
  (Z.eqb (y mod 4) 0 && negb (Z.eqb (y mod 100) 0)) || Z.eqb (y mod 400) 0.

Definition days_in_month (y m : Z) : Z :=
  match m with
  | 2%Z => if is_leap y then 29 else 28
  | 4%Z | 6%Z | 9%Z | 11%Z => 30
  | _ => 31
  end.

(** [datetime.date(y, m, d)] *)
Definition mk_py_date (y m d : Z) : result date :=
  if negb (in_range 1 9999 y) then Raise (ValueError "year is out of range")
  else if negb (in_range 1 12 m) then Raise (ValueError "month must be in 1..12")
  else if negb (in_range 1 (days_in_month y m) d)
  then Raise (ValueError "day is out of range for month")
  else Ok (mkdate y m d).

Definition strptime (s : string) : result date :=
  match p_format s with
  | [] => Raise (ValueError "time data does not match format")
  | (dt, rest) :: _ =>
      match rest with
      | EmptyString => mk_py_date (year dt) (month dt) (day dt)
      | _ => Raise (ValueError ("unconverted data remains: " ++ rest))
      end
  end.

(** [date.toordinal()] as in CPython's [datetime] module. *)
Definition days_before_year (y : Z) : Z :=
  let y1 := (y - 1)%Z in (y1 * 365 + y1 / 4 - y1 / 100 + y1 / 400)%Z.

Definition days_before_month (y m : Z) : Z :=
  (nth (Z.to_nat m) [0; 0; 31; 59; 90; 120; 151; 181; 212; 243; 273; 304; 334]%Z 0
   + (if (2 <? m)%Z && is_leap y then 1 else 0))%Z.

Definition toordinal (d : date) : Z :=
  (days_before_year (year d) + days_before_month (year d) (month d) + day d)%Z.

(** [d.strftime("%A")] *)
Definition strftime_A (d : date) : string :=
  nth (Z.to_nat ((toordinal d + 6) mod 7))
    ["Monday"; "Tuesday"; "Wednesday"; "Thursday"; "Friday"; "Saturday"; "Sunday"] "".

(* ------------------------------------------------------------------ *)
(** ** [search_auroville_events] *)

(** A retrieved LangChain document. *)
Record document := mkdoc { metadata : list (string * string); page_content : string }.

(** The keyword arguments passed to [retriever.invoke]: [{"k": k}] and, when
    the Chroma filter is non-empty, its ["filter"] entry. *)
Record search_kwargs := mkkwargs { kw_k : Z; kw_filter : option chroma_dict }.

Definition nl : string := String (ascii_of_nat 10) EmptyString.

Definition NO_RESULTS : string :=
  "No relevant information found about Auroville events based on your query and filters.".

(** [k_value = 100 if specificity.lower() == "broad" else 20] *)
Definition k_value (specificity : string) : Z :=
  if String.eqb (py_lower specificity) "broad" then 100%Z else 20%Z.

(** Lines 143-163: the date filter and the weekday derived from it. *)
Definition date_filters (now_year : Z) (filter_date : option string)
  : M (list (string * string)) :=
  match filter_date with
  | Some fd =>
      if truthy fd then
        let simple_filters := dict_set [] "date" fd in
        try_value_error
          (parsed_date <- lift (strptime fd) ;;
           let derived_day := strftime_A parsed_date in
           let simple_filters := dict_set simple_filters "day" derived_day in
           info ("[FILTER] Derived weekday '" ++ derived_day ++ "' from date '" ++ fd ++ "'") ;;;
           ret simple_filters)
          (fun _ =>
             try_value_error
               (parsed_date <- lift (strptime (fd ++ ", " ++ py_str_Z now_year)) ;;
                let derived_day := strftime_A parsed_date in
                let simple_filters := dict_set simple_filters "day" derived_day in
                info ("[FILTER] Derived weekday '" ++ derived_day
                      ++ "' from partial date '" ++ fd ++ "'") ;;;
                ret simple_filters)
               (fun _ =>
                  warning ("[FILTER] Could not parse date '" ++ fd ++ "' to derive day") ;;;
                  ret simple_filters))
      else info "[FILTER] No date provided — skipping date parsing." ;;; ret []
  | None => info "[FILTER] No date provided — skipping date parsing." ;;; ret []
  end.

(** [if x: simple_filters[key] = x] *)
Definition add_if (key : string) (o : option string) (d : list (string * string))
  : list (string * string) :=
  match o with
  | Some v => if truthy v then dict_set d key v else d
  | None => d
  end.

(** Lines 165-169. *)
Definition simple_filters_of (now_year : Z) (filter_day filter_date filter_location : option string)
  : M (list (string * string)) :=
  sf <- date_filters now_year filter_date ;;
  ret (add_if "location" filter_location (add_if "day" filter_day sf)).

(** Lines 171-181: the Chroma filter, OR logic. *)
Definition chroma_filter_of (simple_filters : list (string * string)) : chroma_dict :=
  if (1 <=? List.length simple_filters)%nat then
    let conditions := map (fun '(key, value) => (key, value)) simple_filters in
    if (List.length simple_filters =? 1)%nat then
      match conditions with
      | (key, value) :: _ => [(key, FEq value)]
      | [] => []
      end
    else [("$or", FList conditions)]
  else [].

Definition doc_line (i : nat) (doc : document) : string :=
  let get k := match dict_get (metadata doc) k with Some v => v | None => "N/A" end in
  "Document " ++ py_str_nat (S i) ++ " (Day: " ++ get "day" ++ " | Date: " ++ get "date"
  ++ " | Location: " ++ get "location" ++ "):" ++ nl ++ page_content doc.

Fixpoint enumerate_from {A} (i : nat) (l : list A) : list (nat * A) :=
  match l with [] => [] | x :: l' => (i, x) :: enumerate_from (S i) l' end.

Fixpoint py_join (sep : string) (l : list string) : string :=
  match l with
  | [] => ""
  | [x] => x
  | x :: l' => x ++ sep ++ py_join sep l'
  end.

(** Lines 133-188: everything before [retriever.invoke], returning the
    keyword arguments of the search. *)
Definition prepare_search (now_year : Z) (search_query specificity : string)
  (filter_day filter_date filter_location : option string) : M search_kwargs :=
  info ("RAG Tool called with query: " ++ search_query) ;;;
  let k := k_value specificity in
  simple_filters <- simple_filters_of now_year filter_day filter_date filter_location ;;
  let chroma_filter := chroma_filter_of simple_filters in
  match chroma_filter with
  | [] => ret (mkkwargs k None)
  | _ => log_filter chroma_filter ;;; ret (mkkwargs k (Some chroma_filter))
  end.

(** Lines 193-205. *)
Definition format_output (docs : list document) : M string :=
  match docs with
  | [] => ret NO_RESULTS
  | _ =>
      let context := py_join (nl ++ nl)
                       (map (fun '(i, doc) => doc_line i doc) (enumerate_from 0 docs)) in
      info ("Retrieved " ++ py_str_nat (List.length docs) ++ " documents for RAG context") ;;;
      ret ("Here is relevant information about Auroville events:" ++ nl ++ nl ++ context)
  end.

(** The tool. [retriever_invoke] is the vector-store retriever, an external
    dependency that returns ranked documents or raises; [now_year] is
    [datetime.now().year]. *)
Definition search_auroville_events
  (retriever_invoke : string -> search_kwargs -> result (list document))
  (now_year : Z) (search_query specificity : string)
  (filter_day filter_date filter_location : option string) : M string :=
  kwargs <- prepare_search now_year search_query specificity
              filter_day filter_date filter_location ;;
  docs <- lift (retriever_invoke search_query kwargs) ;;
  format_output docs.

(* ------------------------------------------------------------------ *)
(** ** [streaming_chat] (src/app.py)

    An async generator: its observable behaviour is the list of chat
    histories it yields and how it ends (normally, or by raising). *)

Record message := mkmsg { role : string; content : string }.

Inductive stream_event :=
| TextDelta (delta : string)   (** a [RawResponsesStreamEvent] carrying a [ResponseTextDeltaEvent] *)
| OtherEvent.                  (** any other stream event *)

(** The events of [Runner.run_streamed(...).stream_events()], ending either
    normally or with an exception raised by the agent run. *)
Inductive agent_stream :=
| SDone
| SEvent (e : stream_event) (rest : agent_stream)
| SFail (x : exn).

Definition turn (history : list message) (question answer : string) : list message :=
  (history ++ [mkmsg "user" question; mkmsg "assistant" answer])%list.

Definition APOLOGY : string :=
  "I apologize, but I couldn't generate a proper response. Please try again.".

Definition error_message (e : exn) : string :=
  "I encountered an error: " ++ exn_str e ++ ". Please try again.".

(** Lines 57-68: consume the stream, accumulating [response_text] and
    yielding the updated history after each text delta. *)
Fixpoint consume (history : list message) (question : string)
  (response_text : string) (s : agent_stream) : list (list message) * result string :=
  match s with
  | SDone => ([], Ok response_text)
  | SFail x => ([], Raise x)
  | SEvent (TextDelta d) rest =>
      let response_text := response_text ++ d in
      let '(ys, r) := consume history question response_text rest in
      (turn history question response_text :: ys, r)
  | SEvent OtherEvent rest => consume history question response_text rest
  end.

Section Chat.

(** [session_handler.save_message(session_id, role, content)]: an external
    dependency (the session database) that may raise. *)
Variable save_message : string -> string -> string -> result unit.
(** [Runner.run_streamed(auroville_agent, messages)]: the agent run. *)
Variable run_streamed : list message -> agent_stream.

Definition streaming_chat (question : string) (history : list message)
  (session_id : option string) : list (list message) * result unit :=
  match session_id with
  | None => ([], Ok tt)
  | Some sid =>
      (* if not session_id or session_id == "null": return *)
      if negb (truthy sid) || String.eqb sid "null" then ([], Ok tt) else
      match save_message sid "user" question with
      | Raise x => ([], Raise x)
      | Ok _ =>
          let messages := (history ++ [mkmsg "user" question])%list in
          (* try: *)
          let '(ys, r) := consume history question "" (run_streamed messages) in
          let body :=
            match r with
            | Raise x => (ys, Raise x)
            | Ok response_text =>
                if truthy response_text
                then (ys, save_message sid "assistant" response_text)
                else ((ys ++ [turn history question APOLOGY])%list,
                      save_message sid "assistant" APOLOGY)
            end in
          match body with
          | (ys', Ok _) => (ys', Ok tt)
          | (ys', Raise e) =>
              (* except Exception as e: *)
              let error_msg := error_message e in
              ((ys' ++ [turn history question error_msg])%list,
               save_message sid "assistant" error_msg)
          end
      end
  end.

End Chat.

(** The full text the agent streams: the concatenation of its text deltas. *)
Fixpoint stream_text (s : agent_stream) : string :=
  match s with
  | SDone | SFail _ => ""
  | SEvent (TextDelta d) rest => d ++ stream_text rest
  | SEvent OtherEvent rest => stream_text rest
  end.

(* ------------------------------------------------------------------ *)
(** ** Click-to-search links ([JS_CODE] in src/app.py)

    The click handler reads the [href] of the clicked link and, for
    [#TRIGGER_SEARCH::query::specificity], places [query] in the message box
    and submits it. Modelled here: the text it places in the box, if any. *)

(** [s.startsWith(p)] *)
Fixpoint js_starts_with (p s : string) : bool :=
  match p, s with
  | EmptyString, _ => true
  | String a p', String c s' => Ascii.eqb a c && js_starts_with p' s'
  | String _ _, EmptyString => false
  end.

(** [s.split('::')]: scanning left to right, each occurrence of ["::"] ends
    the current part; [acc] is the part read so far. *)
Fixpoint js_split_dcolon (s : string) (acc : string) : list string :=
  match s with
  | EmptyString => [acc]
  | String ":" (String ":" rest) => acc :: js_split_dcolon rest ""
  | String c rest => js_split_dcolon rest (acc ++ String c "")
  end.

(** [s.substring(1)] *)
Definition js_substring1 (s : string) : string :=
  match s with EmptyString => EmptyString | String _ s' => s' end.

Definition TRIGGER_PREFIX : string := "#TRIGGER_SEARCH::".

(** Lines 112-130: the query placed into the input box for a link with the
    given [href] ([None] for a link without one). *)
Definition trigger_query (href : option string) : option string :=
  match href with
  | None => None                                  (* if (!href) return; *)
  | Some h =>
      if negb (truthy h) then None
      else if js_starts_with TRIGGER_PREFIX h then
        let parts := js_split_dcolon (js_substring1 h) "" in
        if (List.length parts <? 2)%nat then None   (* if (parts.length < 2) return; *)
        else nth_error parts 1                       (* const query = parts[1]; *)
      else None
  end.

(* ------------------------------------------------------------------ *)
(** ** Auxiliary definitions for the statements *)

(** The weekday that lines 147-161 derive from a date string, if any. *)
Definition derived_weekday (now_year : Z) (fd : string) : option string :=
  match strptime fd with
  | Ok d => Some (strftime_A d)
  | Raise _ =>
      match strptime (fd ++ ", " ++ py_str_Z now_year) with
      | Ok d => Some (strftime_A d)
      | Raise _ => None
      end
  end.

(** The entries of [simple_filters] after line 163. *)
Definition date_conditions (now_year : Z) (filter_date : option string) : list condition :=
  match filter_date with
  | Some fd =>
      if truthy fd then
        ("date", fd) :: match derived_weekday now_year fd with
                        | Some w => [("day", w)]
                        | None => []
                        end
      else []
  | None => []
  end.

(** The equality conditions of an emitted filter, read back as
    [(key, value)] pairs. *)
Definition filter_conditions (f : option chroma_dict) : list condition :=
  match f with
  | Some [(k, FEq v)] => [(k, v)]
  | Some [(k, FList cs)] => if String.eqb k "$or" then cs else []
  | _ => []
  end.

(* ------------------------------------------------------------------ *)
(** ** Lemmas *)

Lemma strptime_value_error (s : string) :
  (exists d, strptime s = Ok d) \/ (exists m, strptime s = Raise (ValueError m)).
Proof.
  unfold strptime.
  destruct (p_format s) as [|[dt rest] tl]; [right; eauto|].
  destruct rest; [|right; eauto].
  unfold mk_py_date.
  destruct (negb (in_range 1 9999 (year dt))); [right; eauto|].
  destruct (negb (in_range 1 12 (month dt))); [right; eauto|].
  destruct (negb (in_range 1 (days_in_month (year dt) (month dt)) (day dt)));
    [right; eauto | left; eauto].
Qed.

Lemma date_filters_ok (now_year : Z) (filter_date : option string) (l : list log_entry) :
  exists l', date_filters now_year filter_date l = (l', Ok (date_conditions now_year filter_date)).
Proof.
  unfold date_filters, date_conditions, try_value_error, bind, lift, info, warning, ret,
    derived_weekday.
  destruct filter_date as [fd|]; [|eauto].
  destruct (truthy fd) eqn:Ht; [|eauto].
  destruct (strptime_value_error fd) as [[d E1]|[m E1]]; rewrite E1; [eauto|].
  destruct (strptime_value_error (fd ++ ", " ++ py_str_Z now_year)) as [[d E2]|[m2 E2]];
    rewrite E2; eauto.
Qed.

Lemma simple_filters_of_ok now_year filter_day filter_date filter_location l :
  exists l', simple_filters_of now_year filter_day filter_date filter_location l
             = (l', Ok (add_if "location" filter_location
                          (add_if "day" filter_day (date_conditions now_year filter_date)))).
Proof.
  unfold simple_filters_of, bind, ret.
  destruct (date_filters_ok now_year filter_date l) as [l' E]; rewrite E; eauto.
Qed.

Lemma dict_set_keys {V} (d : list (string * V)) k v x :
  In x (map fst (dict_set d k v)) <-> x = k \/ In x (map fst d).
Proof.
  induction d as [|[k' v'] d IH]; simpl; [intuition congruence|].
  destruct (String.eqb k k') eqn:E; simpl.
  - apply String.eqb_eq in E; subst; intuition congruence.
  - rewrite IH; intuition congruence.
Qed.

Lemma dict_set_nodup {V} (d : list (string * V)) k v :
  NoDup (map fst d) -> NoDup (map fst (dict_set d k v)).
Proof.
  induction d as [|[k' v'] d IH]; simpl; intros Hd.
  - constructor; [simpl; tauto | constructor].
  - inversion Hd as [|? ? Hnin Hd']; subst.
    destruct (String.eqb k k') eqn:E; simpl.
    + apply String.eqb_eq in E; subst; constructor; assumption.
    + constructor; [|auto].
      rewrite dict_set_keys. intros [H|H]; [|contradiction].
      subst; rewrite String.eqb_refl in E; discriminate.
Qed.

Lemma add_if_nodup key o (d : list condition) :
  NoDup (map fst d) -> NoDup (map fst (add_if key o d)).
Proof.
  destruct o as [v|]; simpl; [destruct (truthy v)|]; auto using dict_set_nodup.
Qed.

Lemma add_if_keys key o (d : list condition) x :
  In x (map fst (add_if key o d)) -> x = key \/ In x (map fst d).
Proof.
  destruct o as [v|]; simpl; [destruct (truthy v)|]; auto.
  rewrite dict_set_keys; auto.
Qed.

Lemma date_conditions_nodup now_year fdate :
  NoDup (map fst (date_conditions now_year fdate)).
Proof.
  unfold date_conditions.
  destruct fdate as [fd|]; [destruct (truthy fd)|]; [|constructor|constructor].
  destruct (derived_weekday now_year fd); simpl.
  - constructor; [simpl; intros [H|[]]; discriminate|].
    constructor; [simpl; tauto|constructor].
  - constructor; [simpl; tauto|constructor].
Qed.

Lemma date_conditions_keys now_year fdate x :
  In x (map fst (date_conditions now_year fdate)) -> x = "date" \/ x = "day".
Proof.
  unfold date_conditions.
  destruct fdate as [fd|]; [destruct (truthy fd)|]; simpl; try tauto.
  destruct (derived_weekday now_year fd); simpl; intuition.
Qed.

Lemma map_pair_id (l : list condition) : map (fun '(key, value) => (key, value)) l = l.
Proof. induction l as [|[a b] l IH]; simpl; [reflexivity | f_equal; exact IH]. Qed.

(** The keyword arguments [prepare_search] passes to the retriever. *)
Definition kwargs_of (specificity : string) (sf : list condition) : search_kwargs :=
  mkkwargs (k_value specificity)
    (match chroma_filter_of sf with [] => None | cf => Some cf end).

Lemma prepare_search_ok now_year q specificity fday fdate floc l :
  exists l', prepare_search now_year q specificity fday fdate floc l =
    (l', Ok (kwargs_of specificity
               (add_if "location" floc (add_if "day" fday (date_conditions now_year fdate))))).
Proof.
  unfold prepare_search, kwargs_of.
  unfold bind at 1. unfold info at 1.
  destruct (simple_filters_of_ok now_year fday fdate floc
              (l ++ [LogInfo ("RAG Tool called with query: " ++ q)])%list) as [l1 E].
  unfold bind at 1. rewrite E.
  destruct (chroma_filter_of _); unfold bind, log_filter, ret; eauto.
Qed.

Lemma chroma_filter_nil (sf : list condition) : chroma_filter_of sf = [] -> sf = [].
Proof.
  unfold chroma_filter_of.
  destruct sf as [|[k v] [|c sf]]; simpl; intros H; try discriminate; reflexivity.
Qed.

Lemma filter_conditions_kwargs specificity (sf : list condition) :
  filter_conditions (kw_filter (kwargs_of specificity sf)) = sf.
Proof.
  unfold kwargs_of, chroma_filter_of; simpl.
  destruct sf as [|[k v] [|[c1 c2] sf]]; simpl; try reflexivity.
  rewrite map_pair_id. reflexivity.
Qed.

Lemma dict_get_set_eq {V} (d : list (string * V)) k v : dict_get (dict_set d k v) k = Some v.
Proof.
  induction d as [|[k' v'] d IH]; simpl; [now rewrite String.eqb_refl|].
  destruct (String.eqb k k') eqn:E; simpl; [now rewrite String.eqb_refl|].
  rewrite E; exact IH.
Qed.

Lemma dict_get_set_neq {V} (d : list (string * V)) k k' v :
  k' <> k -> dict_get (dict_set d k v) k' = dict_get d k'.
Proof.
  intros Hne. induction d as [|[k0 v0] d IH]; simpl.
  - destruct (String.eqb k' k) eqn:E; [apply String.eqb_eq in E; contradiction|reflexivity].
  - destruct (String.eqb k k0) eqn:E; simpl.
    + apply String.eqb_eq in E; subst.
      destruct (String.eqb k' k0) eqn:E'; [apply String.eqb_eq in E'; contradiction|reflexivity].
    + destruct (String.eqb k' k0); [reflexivity|exact IH].
Qed.

(** The Gregorian weekday by Zeller's congruence, independent of the
    ordinal computation of [datetime]. *)
Definition zeller_weekday (y m d : Z) : string :=
  let '(m', y') := if (m <? 3)%Z then ((m + 12)%Z, (y - 1)%Z) else (m, y) in
  let K := (y' mod 100)%Z in
  let J := (y' / 100)%Z in
  let h := ((d + (13 * (m' + 1)) / 5 + K + K / 4 + J / 4 + 5 * J) mod 7)%Z in
  nth (Z.to_nat h)
    ["Saturday"; "Sunday"; "Monday"; "Tuesday"; "Wednesday"; "Thursday"; "Friday"] "".

(* ------------------------------------------------------------------ *)
(** ** Claims *)

(** C1. The filter builder: the conditions assembled by lines 143-169 are one
    equality per field among date, day and location, each field at most once;
    with none of them the retriever gets no filter, with exactly one it gets
    that single equality [{key: {"$eq": v}}], and with two or more it gets
    [{"$or": [...]}] over all of them, never an AND combination. *)
Theorem filter_builder_or_semantics now_year search_query specificity
  filter_day filter_date filter_location :
  let sf := add_if "location" filter_location
              (add_if "day" filter_day (date_conditions now_year filter_date)) in
  (forall l, exists l', simple_filters_of now_year filter_day filter_date filter_location l
                        = (l', Ok sf)) /\
  NoDup (map fst sf) /\
  (forall key, In key (map fst sf) -> key = "date" \/ key = "day" \/ key = "location") /\
  (forall l, exists l' kw,
     prepare_search now_year search_query specificity filter_day filter_date filter_location l
       = (l', Ok kw) /\
     (sf = [] -> kw_filter kw = None) /\
     (forall key v, sf = [(key, v)] -> kw_filter kw = Some [(key, FEq v)]) /\
     ((2 <= List.length sf)%nat -> kw_filter kw = Some [("$or", FList sf)])).
Proof.
  intros sf. split; [|split; [|split]].
  - intros l. apply simple_filters_of_ok.
  - apply add_if_nodup, add_if_nodup, date_conditions_nodup.
  - intros key H.
    apply add_if_keys in H as [H|H]; [auto|].
    apply add_if_keys in H as [H|H]; [auto|].
    apply date_conditions_keys in H as [H|H]; auto.
  - intros l.
    destruct (prepare_search_ok now_year search_query specificity
                filter_day filter_date filter_location l) as [l' E].
    exists l', (kwargs_of specificity sf). split; [exact E|].
    unfold kwargs_of, chroma_filter_of; simpl.
    split; [|split].
    + intros ->. reflexivity.
    + intros key v ->. reflexivity.
    + intros Hlen.
      destruct sf as [|[k v] [|[c1 c2] sf']]; simpl in Hlen; try lia.
      simpl. rewrite map_pair_id. reflexivity.
Qed.

Lemma dict_get_add_if_other key o (d : list condition) k :
  k <> key -> dict_get (add_if key o d) k = dict_get d k.
Proof.
  intros Hne. destruct o as [v|]; simpl; [destruct (truthy v)|]; auto.
  apply dict_get_set_neq; auto.
Qed.

Lemma strptime_comma_year (y : Z) : exists m, strptime (", " ++ py_str_Z y) = Raise (ValueError m).
Proof. eexists. reflexivity. Qed.

(** C2. Weekday derivation from [filter_date]: the string is first parsed with
    ["%B %d, %Y"]; on failure it is parsed again with [", <current year>"]
    appended; if that fails too, no day condition is derived, a warning is
    logged, and the tool goes on to the search without raising. *)
Theorem weekday_derivation_fallback now_year search_query specificity fd filter_location :
  (forall l, exists l' sf,
     simple_filters_of now_year None (Some fd) filter_location l = (l', Ok sf) /\
     dict_get sf "day" =
       match strptime fd with
       | Ok d => Some (strftime_A d)
       | Raise _ =>
           match strptime (fd ++ ", " ++ py_str_Z now_year) with
           | Ok d => Some (strftime_A d)
           | Raise _ => None
           end
       end) /\
  (forall l, truthy fd = true ->
     (exists m, strptime fd = Raise m) ->
     (exists m, strptime (fd ++ ", " ++ py_str_Z now_year) = Raise m) ->
     date_filters now_year (Some fd) l =
       ((l ++ [LogWarning ("[FILTER] Could not parse date '" ++ fd ++ "' to derive day")])%list,
        Ok [("date", fd)])) /\
  (forall l, exists l' kw,
     prepare_search now_year search_query specificity None (Some fd) filter_location l
       = (l', Ok kw)).
Proof.
  split; [|split].
  - intros l.
    destruct (simple_filters_of_ok now_year None (Some fd) filter_location l) as [l' E].
    eexists l', _. split; [exact E|].
    rewrite dict_get_add_if_other by discriminate.
    simpl add_if. unfold date_conditions.
    destruct (truthy fd) eqn:Ht.
    + simpl. unfold derived_weekday.
      destruct (strptime fd); [reflexivity|].
      destruct (strptime _); reflexivity.
    + destruct fd; [|discriminate].
      destruct (strptime_comma_year now_year) as [m Hm].
      change (None = match strptime "" with
                     | Ok d => Some (strftime_A d)
                     | Raise _ =>
                         match strptime (", " ++ py_str_Z now_year) with
                         | Ok d => Some (strftime_A d)
                         | Raise _ => None
                         end
                     end).
      rewrite Hm. reflexivity.
  - intros l Ht [m1 E1] [m2 E2].
    unfold date_filters. rewrite Ht.
    unfold try_value_error, bind, lift, warning, ret.
    destruct (strptime_value_error fd) as [[d E]|[m E]]; rewrite E in *; [discriminate|].
    destruct (strptime_value_error (fd ++ ", " ++ py_str_Z now_year)) as [[d E']|[m' E']];
      rewrite E' in *; [discriminate|].
    reflexivity.
  - intros l.
    destruct (prepare_search_ok now_year search_query specificity None (Some fd)
                filter_location l) as [l' E].
    eauto.
Qed.

(** C3. With [filter_date = "November 5, 2025"] and no day or location, the
    derived day is "Wednesday", the Gregorian weekday of that date, and the
    retriever receives [{"$or": [{"date": {"$eq": "November 5, 2025"}},
    {"day": {"$eq": "Wednesday"}}]}]. *)
Theorem november_5_2025_filter now_year search_query specificity l :
  zeller_weekday 2025 11 5 = "Wednesday" /\
  exists l',
    prepare_search now_year search_query specificity None (Some "November 5, 2025") None l
    = (l', Ok (mkkwargs (k_value specificity)
                 (Some [("$or", FList [("date", "November 5, 2025"); ("day", "Wednesday")])]))).
Proof.
  split; [reflexivity|].
  destruct (prepare_search_ok now_year search_query specificity None
              (Some "November 5, 2025") None l) as [l' E].
  exists l'. rewrite E. reflexivity.
Qed.

(** C4. The retrieval depth for specificity "Broad" (100) is strictly larger
    than for "Specific" (20), whatever the other arguments. *)
Theorem broad_depth_exceeds_specific now_year search_query fday fdate floc l :
  exists l1 l2 kb ks,
    prepare_search now_year search_query "Broad" fday fdate floc l = (l1, Ok kb) /\
    prepare_search now_year search_query "Specific" fday fdate floc l = (l2, Ok ks) /\
    kw_k kb = 100%Z /\ kw_k ks = 20%Z /\ (kw_k ks < kw_k kb)%Z.
Proof.
  destruct (prepare_search_ok now_year search_query "Broad" fday fdate floc l) as [l1 E1].
  destruct (prepare_search_ok now_year search_query "Specific" fday fdate floc l) as [l2 E2].
  do 4 eexists. split; [exact E1|]. split; [exact E2|].
  simpl. repeat split; reflexivity.
Qed.

(** C10. The depth is 100 exactly when [specificity.lower() == "broad"] and
    20 otherwise, so it is always 20 or 100 and positive, and it is the [k]
    passed to the retriever. *)
Theorem k_value_cases specificity :
  (k_value specificity = 100%Z <-> py_lower specificity = "broad") /\
  (py_lower specificity <> "broad" -> k_value specificity = 20%Z) /\
  (k_value specificity = 20%Z \/ k_value specificity = 100%Z) /\
  (0 < k_value specificity)%Z /\
  (forall now_year search_query fday fdate floc l, exists l' kw,
     prepare_search now_year search_query specificity fday fdate floc l = (l', Ok kw) /\
     kw_k kw = k_value specificity).
Proof.
  unfold k_value.
  destruct (String.eqb (py_lower specificity) "broad") eqn:E.
  - apply String.eqb_eq in E.
    split; [tauto|]. split; [contradiction|]. split; [right; reflexivity|]. split; [lia|].
    intros. destruct (prepare_search_ok now_year search_query specificity fday fdate floc l)
      as [l' E']. do 2 eexists. split; [exact E'|]. simpl. unfold k_value. now rewrite E.
  - apply String.eqb_neq in E.
    split; [split; [discriminate|contradiction]|]. split; [reflexivity|].
    split; [left; reflexivity|]. split; [lia|].
    intros. destruct (prepare_search_ok now_year search_query specificity fday fdate floc l)
      as [l' E']. do 2 eexists. split; [exact E'|]. simpl. unfold k_value.
    apply String.eqb_neq in E. now rewrite E.
Qed.

(** C5. When the retrieval returns no documents, the tool returns the fixed,
    non-empty message [NO_RESULTS] and does not raise. *)
Theorem empty_retrieval_message retriever_invoke now_year search_query specificity
  fday fdate floc l l' kw :
  prepare_search now_year search_query specificity fday fdate floc l = (l', Ok kw) ->
  retriever_invoke search_query kw = Ok [] ->
  search_auroville_events retriever_invoke now_year search_query specificity fday fdate floc l
    = (l', Ok NO_RESULTS) /\ NO_RESULTS <> "".
Proof.
  intros Hp Hr. split; [|discriminate].
  unfold search_auroville_events, bind at 1. rewrite Hp.
  unfold bind, lift. rewrite Hr. reflexivity.
Qed.

Lemma empty_retrieval_message_witness :
  prepare_search 2026 "events" "Broad" None None None [] =
    ([LogInfo "RAG Tool called with query: events";
      LogInfo "[FILTER] No date provided — skipping date parsing."], Ok (mkkwargs 100 None)) /\
  (fun (_ : string) (_ : search_kwargs) => @Ok (list document) []) "events" (mkkwargs 100 None)
    = Ok [] /\
  (search_auroville_events (fun _ _ => Ok []) 2026 "events" "Broad" None None None []
    = ([LogInfo "RAG Tool called with query: events";
        LogInfo "[FILTER] No date provided — skipping date parsing."], Ok NO_RESULTS)
   /\ NO_RESULTS <> "").
Proof.
  split; [reflexivity|]. split; [reflexivity|].
  apply (empty_retrieval_message (fun _ _ => Ok []) 2026 "events" "Broad" None None None []
           _ (mkkwargs 100 None)); reflexivity.
Defined.

Example derive_partial_date_current_year :
  snd (date_filters 2026 (Some "March 3") []) = Ok [("date", "March 3"); ("day", "Tuesday")].
Proof. reflexivity. Qed.

Example derive_iso_date_fails :
  date_filters 2026 (Some "2025-10-28") [] =
    ([LogWarning "[FILTER] Could not parse date '2025-10-28' to derive day"],
     Ok [("date", "2025-10-28")]).
Proof. reflexivity. Qed.

(** C6, as stated, fails: an empty [filter_day] is provided but is falsy, so
    the weekday derived from the date stays the day condition. *)
Lemma empty_filter_day_not_used :
  exists kw,
    snd (prepare_search 2026 "events" "Broad" (Some "") (Some "November 5, 2025") None [])
      = Ok kw /\
    dict_get (filter_conditions (kw_filter kw)) "day" = Some "Wednesday" /\
    dict_get (filter_conditions (kw_filter kw)) "day" <> Some "".
Proof.
  eexists. split; [reflexivity|]. split; [reflexivity|]. discriminate.
Qed.

(** C6 (amended). A non-empty [filter_day] is the day condition of the emitted
    filter; when [filter_day] is [None] or empty, the day condition is the
    weekday derived from a non-empty [filter_date], if any. *)
Theorem explicit_day_overrides_derived now_year search_query specificity
  filter_day filter_date filter_location l :
  exists l' kw,
    prepare_search now_year search_query specificity filter_day filter_date filter_location l
      = (l', Ok kw) /\
    (forall d, filter_day = Some d -> truthy d = true ->
       dict_get (filter_conditions (kw_filter kw)) "day" = Some d) /\
    (opt_truthy filter_day = false ->
       dict_get (filter_conditions (kw_filter kw)) "day" =
         match filter_date with
         | Some fd => if truthy fd then derived_weekday now_year fd else None
         | None => None
         end).
Proof.
  destruct (prepare_search_ok now_year search_query specificity
              filter_day filter_date filter_location l) as [l' E].
  do 2 eexists. split; [exact E|].
  rewrite filter_conditions_kwargs.
  rewrite dict_get_add_if_other by discriminate.
  split.
  - intros d -> Ht. simpl. rewrite Ht. apply dict_get_set_eq.
  - intros Hf.
    assert (Hd : add_if "day" filter_day (date_conditions now_year filter_date)
                 = date_conditions now_year filter_date)
      by (destruct filter_day as [d|]; simpl in *; [rewrite Hf|]; reflexivity).
    rewrite Hd. unfold date_conditions.
    destruct filter_date as [fd|]; [|reflexivity].
    destruct (truthy fd); [|reflexivity].
    simpl. destruct (derived_weekday now_year fd); reflexivity.
Qed.

(** How the agent stream ends: [Some x] when the run raises [x]. *)
Fixpoint stream_failure (s : agent_stream) : option exn :=
  match s with
  | SDone => None
  | SFail x => Some x
  | SEvent _ rest => stream_failure rest
  end.

Lemma consume_failure history question t s x :
  stream_failure s = Some x -> snd (consume history question t s) = Raise x.
Proof.
  revert t. induction s as [|e rest IH|y]; simpl; intros t H; try discriminate.
  - destruct e as [d|].
    + destruct (consume history question (t ++ d) rest) as [ys r] eqn:E.
      simpl. specialize (IH (t ++ d) H). rewrite E in IH. exact IH.
    + apply IH, H.
  - congruence.
Qed.

(** C9, as stated, fails: an exception raised by the session database while
    the user message is saved, before the [try] block, reaches the caller. *)
Lemma user_message_save_failure_propagates :
  streaming_chat (fun _ _ _ => Raise (ExternalError "database is locked")) (fun _ => SDone)
    "What's happening today?" [] (Some "s1")
  = ([], Raise (ExternalError "database is locked")).
Proof. reflexivity. Qed.

(** C9 (amended). An exception raised by the agent run is caught: the last
    yielded history ends with the assistant message
    ["I encountered an error: <e>. Please try again."], and the turn ends
    normally when that message is saved (an exception from that save
    propagates). An exception from saving the user message propagates. *)
Theorem agent_failure_yields_error_message save_message run_streamed question history sid :
  truthy sid = true -> sid <> "null" ->
  (forall e, save_message sid "user" question = Raise e ->
     streaming_chat save_message run_streamed question history (Some sid) = ([], Raise e)) /\
  (forall x, save_message sid "user" question = Ok tt ->
     stream_failure (run_streamed (history ++ [mkmsg "user" question])%list) = Some x ->
     exists ys,
       streaming_chat save_message run_streamed question history (Some sid) =
         ((ys ++ [turn history question (error_message x)])%list,
          save_message sid "assistant" (error_message x))).
Proof.
  intros Ht Hn.
  unfold streaming_chat. rewrite Ht.
  assert (Hnull : String.eqb sid "null" = false) by (apply String.eqb_neq; exact Hn).
  rewrite Hnull. simpl.
  split.
  - intros e He. rewrite He. reflexivity.
  - intros x Hu Hf. rewrite Hu.
    pose proof (consume_failure history question "" _ x Hf) as Hc.
    destruct (consume history question "" (run_streamed _)) as [ys r]. simpl in Hc. subst r.
    exists ys. reflexivity.
Qed.

Lemma agent_failure_yields_error_message_witness :
  truthy "s1" = true /\ "s1" <> "null" /\
  streaming_chat (fun _ _ _ => Ok tt)
    (fun _ => SEvent (TextDelta "Here") (SFail (ExternalError "index unreachable")))
    "Yoga on Wednesday?" [] (Some "s1") =
  ([turn [] "Yoga on Wednesday?" "Here";
    turn [] "Yoga on Wednesday?" (error_message (ExternalError "index unreachable"))],
   Ok tt).
Proof.
  split; [reflexivity|]. split; [discriminate|].
  destruct (agent_failure_yields_error_message (fun _ _ _ => Ok tt)
              (fun _ => SEvent (TextDelta "Here") (SFail (ExternalError "index unreachable")))
              "Yoga on Wednesday?" [] "s1" eq_refl ltac:(discriminate)) as [_ H].
  destruct (H (ExternalError "index unreachable") eq_refl eq_refl) as [ys E].
  rewrite E.
  assert (Hys : ys = [turn [] "Yoga on Wednesday?" "Here"]).
  { assert (E' := E). vm_compute in E'. 
    apply (f_equal fst) in E'. simpl in E'.
    destruct ys as [|y [|y' ys]]; simpl in E'; try discriminate.
    inversion E'. reflexivity. inversion E'.
    destruct ys; discriminate. }
  rewrite Hys. reflexivity.
Defined.

(* ------------------------------------------------------------------ *)
(** ** Further properties of the code *)

Lemma format_output_ok docs l :
  exists l' s, format_output docs l = (l', Ok s) /\
    (docs = [] -> s = NO_RESULTS) /\
    (docs <> [] -> exists context,
       s = "Here is relevant information about Auroville events:" ++ nl ++ nl ++ context).
Proof.
  destruct docs as [|d docs]; simpl.
  - do 2 eexists. split; [reflexivity|]. split; [auto|]. intros H; congruence.
  - do 2 eexists. split; [reflexivity|]. split; [discriminate|]. eauto.
Qed.

(** The tool answers with the no-results message exactly when the retriever
    returns no documents; otherwise its answer starts with the header line. *)
Theorem no_results_iff_empty retriever_invoke now_year search_query specificity
  fday fdate floc l docs :
  (forall l0 l1 kw, prepare_search now_year search_query specificity fday fdate floc l0
                      = (l1, Ok kw) -> retriever_invoke search_query kw = Ok docs) ->
  exists l' s,
    search_auroville_events retriever_invoke now_year search_query specificity
      fday fdate floc l = (l', Ok s) /\
    (s = NO_RESULTS <-> docs = []) /\
    (docs <> [] -> exists context,
       s = "Here is relevant information about Auroville events:" ++ nl ++ nl ++ context).
Proof.
  intros Hr.
  destruct (prepare_search_ok now_year search_query specificity fday fdate floc l) as [l1 E].
  unfold search_auroville_events, bind at 1. rewrite E.
  unfold bind, lift. rewrite (Hr _ _ _ E).
  destruct (format_output_ok docs l1) as (l' & s & Ef & H0 & H1).
  rewrite Ef. exists l', s. split; [reflexivity|]. split; [|exact H1].
  split.
  - intros ->. destruct docs as [|d docs]; [reflexivity|].
    destruct (H1 ltac:(discriminate)) as [c Hc]. discriminate Hc.
  - exact H0.
Qed.

Lemma no_results_iff_empty_witness :
  (forall l0 l1 kw, prepare_search 2026 "yoga" "Specific" None None None l0 = (l1, Ok kw) ->
     (fun (_ : string) (_ : search_kwargs) => @Ok (list document) [mkdoc [] "Yoga at Pitanga"])
       "yoga" kw = Ok [mkdoc [] "Yoga at Pitanga"]) /\
  exists l' s,
    search_auroville_events (fun _ _ => Ok [mkdoc [] "Yoga at Pitanga"]) 2026 "yoga" "Specific"
      None None None [] = (l', Ok s) /\
    (s = NO_RESULTS <-> [mkdoc [] "Yoga at Pitanga"] = []) /\
    ([mkdoc [] "Yoga at Pitanga"] <> [] -> exists context,
       s = "Here is relevant information about Auroville events:" ++ nl ++ nl ++ context).
Proof.
  assert (H : forall l0 l1 kw, prepare_search 2026 "yoga" "Specific" None None None l0
                               = (l1, Ok kw) ->
            (fun (_ : string) (_ : search_kwargs) => @Ok (list document)
               [mkdoc [] "Yoga at Pitanga"]) "yoga" kw = Ok [mkdoc [] "Yoga at Pitanga"])
    by (intros; reflexivity).
  split; [exact H|].
  exact (no_results_iff_empty _ 2026 "yoga" "Specific" None None None [] _ H).
Defined.

(** The tool raises only when the retriever raises, and then with the
    retriever's exception: the filter construction never raises and a
    retriever failure is not caught. *)
Theorem tool_raises_only_from_retriever retriever_invoke now_year search_query specificity
  fday fdate floc l e :
  snd (search_auroville_events retriever_invoke now_year search_query specificity
         fday fdate floc l) = Raise e <->
  exists l' kw, prepare_search now_year search_query specificity fday fdate floc l = (l', Ok kw)
                /\ retriever_invoke search_query kw = Raise e.
Proof.
  destruct (prepare_search_ok now_year search_query specificity fday fdate floc l) as [l1 E].
  unfold search_auroville_events, bind at 1. rewrite E.
  unfold bind, lift.
  split.
  - destruct (retriever_invoke search_query _) as [docs|x] eqn:Er.
    + destruct (format_output_ok docs l1) as (l' & s & Ef & _). rewrite Ef. discriminate.
    + simpl. intros H. inversion H; subst. eauto.
  - intros (l' & kw & E' & Er). inversion E'; subst.
    rewrite Er. reflexivity.
Qed.

(** The keys of [simple_filters] appear in the order date, day, location
    (each at most once); a non-empty [filter_date] and [filter_location] are
    kept verbatim, whether or not the date parses. *)
Theorem simple_filters_order now_year fday fdate floc l :
  exists l' sf,
    simple_filters_of now_year fday fdate floc l = (l', Ok sf) /\
    In (map fst sf)
      [[]; ["date"]; ["day"]; ["location"]; ["date"; "day"]; ["date"; "location"];
       ["day"; "location"]; ["date"; "day"; "location"]] /\
    dict_get sf "date" = (if opt_truthy fdate then fdate else None) /\
    dict_get sf "location" = (if opt_truthy floc then floc else None).
Proof.
  destruct (simple_filters_of_ok now_year fday fdate floc l) as [l' E].
  do 2 eexists. split; [exact E|].
  unfold date_conditions.
  destruct fdate as [fd|]; [destruct (truthy fd) eqn:Hd|];
  [destruct (derived_weekday now_year fd)| |];
  (destruct fday as [dy|]; [destruct (truthy dy) eqn:Hy|]);
  (destruct floc as [lc|]; [destruct (truthy lc) eqn:Hl|]);
  simpl; try rewrite Hd; try rewrite Hy; try rewrite Hl; simpl;
  try rewrite Hd; try rewrite Hy; try rewrite Hl; simpl;
  (split; [repeat (first [left; reflexivity | right])|]);
  split; reflexivity.
Qed.



(** A date string that parses with its own year never consults the current
    year: the search arguments do not depend on [datetime.now().year]. *)
Theorem explicit_year_ignores_current_year fd d y1 y2 search_query specificity fday floc l :
  strptime fd = Ok d ->
  prepare_search y1 search_query specificity fday (Some fd) floc l =
  prepare_search y2 search_query specificity fday (Some fd) floc l.
Proof.
  intros H.
  assert (Ht : truthy fd = true) by (destruct fd; [discriminate|reflexivity]).
  unfold prepare_search, simple_filters_of, date_filters, try_value_error, bind, lift,
    info, ret.
  rewrite Ht, H. reflexivity.
Qed.

Lemma explicit_year_ignores_current_year_witness :
  strptime "November 5, 2025" = Ok (mkdate 2025 11 5) /\
  prepare_search 2025 "events" "Broad" None (Some "November 5, 2025") None [] =
  prepare_search 2031 "events" "Broad" None (Some "November 5, 2025") None [].
Proof.
  split; [reflexivity|].
  exact (explicit_year_ignores_current_year "November 5, 2025" (mkdate 2025 11 5) 2025 2031
           "events" "Broad" None None [] eq_refl).
Defined.

Lemma str_append_assoc (a b c : string) : a ++ (b ++ c) = (a ++ b) ++ c.
Proof. induction a; simpl; congruence. Qed.

Lemma str_append_nil (a : string) : a ++ "" = a.
Proof. induction a; simpl; congruence. Qed.

Lemma consume_yields history question t s y :
  In y (fst (consume history question t s)) ->
  exists t' suf, y = turn history question t' /\ t' ++ suf = t ++ stream_text s.
Proof.
  revert t. induction s as [|[d|] rest IH|x]; simpl; intros t H; try contradiction.
  - destruct (consume history question (t ++ d) rest) as [ys r] eqn:E. simpl in H.
    destruct H as [H|H].
    + subst. exists (t ++ d), (stream_text rest). split; [reflexivity|].
      symmetry. apply str_append_assoc.
    + specialize (IH (t ++ d)). rewrite E in IH. destruct (IH H) as (t' & suf & -> & Hs).
      exists t', suf. split; [reflexivity|]. rewrite Hs. symmetry. apply str_append_assoc.
  - apply IH, H.
Qed.

Lemma consume_completes history question t s :
  stream_failure s = None -> snd (consume history question t s) = Ok (t ++ stream_text s).
Proof.
  revert t. induction s as [|[d|] rest IH|x]; simpl; intros t H; try discriminate.
  - now rewrite str_append_nil.
  - destruct (consume history question (t ++ d) rest) as [ys r] eqn:E. simpl.
    specialize (IH (t ++ d) H). rewrite E in IH. simpl in IH. rewrite IH.
    now rewrite str_append_assoc.
  - apply IH, H.
Qed.

Lemma consume_no_yield_no_text history question t s :
  fst (consume history question t s) = [] -> stream_text s = "".
Proof.
  revert t. induction s as [|[d|] rest IH|x]; simpl; intros t H; try reflexivity.
  - destruct (consume history question (t ++ d) rest); discriminate.
  - exact (IH t H).
Qed.

Lemma consume_last history question t s :
  stream_failure s = None -> fst (consume history question t s) <> [] ->
  exists ys, fst (consume history question t s) = (ys ++ [turn history question (t ++ stream_text s)])%list.
Proof.
  revert t. induction s as [|[d|] rest IH|x]; simpl; intros t Hf Hn; try discriminate;
    try contradiction.
  - destruct (consume history question (t ++ d) rest) as [ys r] eqn:E. simpl.
    destruct ys as [|y ys'].
    + exists []. simpl.
      assert (Ht : stream_text rest = "")
        by (apply (consume_no_yield_no_text history question (t ++ d)); rewrite E; reflexivity).
      rewrite Ht, str_append_nil. reflexivity.
    + specialize (IH (t ++ d) Hf). rewrite E in IH. simpl in IH.
      destruct IH as [ys0 Hys]; [discriminate|].
      exists (turn history question (t ++ d) :: ys0). rewrite Hys.
      rewrite str_append_assoc. reflexivity.
  - exact (IH t Hf Hn).
Qed.



(** Every history the chat handler yields is the previous history followed
    by the question and one assistant message, which is a prefix of the text
    the agent streamed so far, the apology for an empty answer, or the error
    message of a caught exception. *)
Theorem yielded_histories_shape save_message run_streamed question history session_id y :
  In y (fst (streaming_chat save_message run_streamed question history session_id)) ->
  exists t, y = turn history question t /\
    ((exists suf, t ++ suf = stream_text (run_streamed (history ++ [mkmsg "user" question])%list))
     \/ t = APOLOGY \/ exists e, t = error_message e).
Proof.
  unfold streaming_chat.
  destruct session_id as [sid|]; [|simpl; tauto].
  destruct (negb (truthy sid) || String.eqb sid "null"); [simpl; tauto|].
  destruct (save_message sid "user" question); [|simpl; tauto].
  set (s := run_streamed _).
  pose proof (consume_yields history question "" s) as Hy.
  destruct (consume history question "" s) as [ys r]. simpl in Hy.
  assert (Hys : In y ys -> exists t, y = turn history question t /\
                  ((exists suf, t ++ suf = stream_text s) \/ t = APOLOGY \/
                   exists e, t = error_message e))
    by (intros H; destruct (Hy y H) as (t' & suf & -> & Hs); eauto).
  assert (Happ : forall t zs, In y ((zs ++ [turn history question t])%list) ->
                 In y zs \/ y = turn history question t)
    by (intros t zs H; apply in_app_or in H; destruct H as [H|[H|[]]]; auto).
  destruct r as [text|x].
  - destruct (truthy text).
    + destruct (save_message sid "assistant" text) as [[]|e]; simpl; [exact Hys|].
      intros H. apply Happ in H as [H|H]; [auto|]. subst. eauto 6.
    + destruct (save_message sid "assistant" APOLOGY) as [[]|e]; simpl.
      * intros H. apply Happ in H as [H|H]; [auto|]. subst. eauto 6.
      * intros H. apply Happ in H as [H|H]; [|subst; eauto 6].
        apply Happ in H as [H|H]; [auto|]. subst. eauto 6.
  - simpl. intros H. apply Happ in H as [H|H]; [auto|]. subst. eauto 6.
Qed.

(** When the agent run completes with a non-empty answer, the last history
    yielded carries the whole streamed answer; the turn ends normally when the
    answer is saved, and a failure to save it is caught and shown as an error
    message after the answer. *)
Theorem completed_answer_is_last_yield save_message run_streamed question history sid :
  let s := run_streamed (history ++ [mkmsg "user" question])%list in
  truthy sid = true -> sid <> "null" ->
  save_message sid "user" question = Ok tt ->
  stream_failure s = None -> truthy (stream_text s) = true ->
  exists ys,
    (save_message sid "assistant" (stream_text s) = Ok tt ->
     streaming_chat save_message run_streamed question history (Some sid) =
       ((ys ++ [turn history question (stream_text s)])%list, Ok tt)) /\
    (forall e, save_message sid "assistant" (stream_text s) = Raise e ->
     streaming_chat save_message run_streamed question history (Some sid) =
       ((ys ++ [turn history question (stream_text s);
                turn history question (error_message e)])%list,
        save_message sid "assistant" (error_message e))).
Proof.
  intros s Ht Hn Hu Hf Htext.
  assert (Hnull : String.eqb sid "null" = false) by (apply String.eqb_neq; exact Hn).
  assert (Hne : fst (consume history question "" s) <> []).
  { intros H. apply consume_no_yield_no_text in H. rewrite H in Htext. discriminate. }
  destruct (consume_last history question "" s Hf Hne) as [ys Hys].
  pose proof (consume_completes history question "" s Hf) as Hc.
  exists ys.
  unfold streaming_chat. rewrite Ht, Hnull, Hu. simpl. fold s.
  destruct (consume history question "" s) as [ys1 r]. simpl in Hys, Hc. subst ys1 r.
  simpl in Htext |- *. rewrite Htext.
  split.
  - intros Hs. rewrite Hs. reflexivity.
  - intros e Hs. rewrite Hs. rewrite <- app_assoc. reflexivity.
Qed.

Lemma completed_answer_is_last_yield_witness :
  truthy "s1" = true /\ "s1" <> "null" /\
  (fun (_ _ _ : string) => @Ok unit tt) "s1" "user" "Yoga?" = Ok tt /\
  stream_failure (SEvent (TextDelta "1. Yoga") (SEvent OtherEvent (SEvent (TextDelta " at 7am") SDone))) = None /\
  truthy (stream_text (SEvent (TextDelta "1. Yoga") (SEvent OtherEvent (SEvent (TextDelta " at 7am") SDone)))) = true /\
  streaming_chat (fun (_ _ _ : string) => @Ok unit tt)
    (fun _ => SEvent (TextDelta "1. Yoga") (SEvent OtherEvent (SEvent (TextDelta " at 7am") SDone)))
    "Yoga?" [] (Some "s1") =
    ([turn [] "Yoga?" "1. Yoga"; turn [] "Yoga?" "1. Yoga at 7am"], Ok tt).
Proof.
  do 5 (split; [first [reflexivity | discriminate]|]).
  destruct (completed_answer_is_last_yield (fun (_ _ _ : string) => @Ok unit tt)
              (fun _ => SEvent (TextDelta "1. Yoga") (SEvent OtherEvent (SEvent (TextDelta " at 7am") SDone)))
              "Yoga?" [] "s1" eq_refl ltac:(discriminate) eq_refl eq_refl eq_refl) as [ys [H _]].
  rewrite (H eq_refl).
  assert (E := H eq_refl). vm_compute in E.
  destruct ys as [|y [|y' ys]]; simpl in E; try discriminate.
  - inversion E. reflexivity.
  - inversion E. destruct ys; discriminate.
Defined.

(** When the agent run completes without any text, the last history yielded
    carries the fixed apology, and the turn ends normally when it is saved. *)
Theorem empty_answer_apology save_message run_streamed question history sid :
  let s := run_streamed (history ++ [mkmsg "user" question])%list in
  truthy sid = true -> sid <> "null" ->
  save_message sid "user" question = Ok tt ->
  stream_failure s = None -> stream_text s = "" ->
  save_message sid "assistant" APOLOGY = Ok tt ->
  exists ys,
    streaming_chat save_message run_streamed question history (Some sid) =
      ((ys ++ [turn history question APOLOGY])%list, Ok tt).
Proof.
  intros s Ht Hn Hu Hf Htext Hs.
  assert (Hnull : String.eqb sid "null" = false) by (apply String.eqb_neq; exact Hn).
  pose proof (consume_completes history question "" s Hf) as Hc.
  unfold streaming_chat. rewrite Ht, Hnull, Hu. simpl. fold s.
  destruct (consume history question "" s) as [ys r]. simpl in Hc. subst r.
  simpl. rewrite Htext. simpl. rewrite Hs. eauto.
Qed.

Lemma empty_answer_apology_witness :
  truthy "s1" = true /\ "s1" <> "null" /\
  (fun (_ _ _ : string) => @Ok unit tt) "s1" "user" "events?" = Ok tt /\
  stream_failure (SEvent OtherEvent SDone) = None /\
  stream_text (SEvent OtherEvent SDone) = "" /\
  (fun (_ _ _ : string) => @Ok unit tt) "s1" "assistant" APOLOGY = Ok tt /\
  exists ys, streaming_chat (fun (_ _ _ : string) => @Ok unit tt) (fun _ => SEvent OtherEvent SDone)
               "events?" [] (Some "s1") = ((ys ++ [turn [] "events?" APOLOGY])%list, Ok tt).
Proof.
  do 6 (split; [first [reflexivity | discriminate]|]).
  exact (empty_answer_apology (fun (_ _ _ : string) => @Ok unit tt) (fun _ => SEvent OtherEvent SDone)
           "events?" [] "s1" eq_refl ltac:(discriminate) eq_refl eq_refl eq_refl eq_refl).
Defined.

Fixpoint has_colon (s : string) : bool :=
  match s with
  | EmptyString => false
  | String c s' => Ascii.eqb c ":" || has_colon s'
  end.

Lemma js_starts_with_app p s : js_starts_with p s = true -> exists r, s = p ++ r.
Proof.
  revert s. induction p as [|a p IH]; intros s H; [exists s; reflexivity|].
  destruct s as [|c s]; simpl in H; [discriminate|].
  apply andb_prop in H as [Ha Hp]. apply Ascii.eqb_eq in Ha. subst.
  destruct (IH s Hp) as [r ->]. exists r. reflexivity.
Qed.

Lemma js_starts_with_prefix p r : js_starts_with p (p ++ r) = true.
Proof. induction p as [|a p IH]; simpl; [reflexivity|]. now rewrite Ascii.eqb_refl. Qed.

Lemma js_split_char c s acc :
  Ascii.eqb c ":" = false ->
  js_split_dcolon (String c s) acc = js_split_dcolon s (acc ++ String c "").
Proof.
  intros H. destruct c as [[] [] [] [] [] [] [] []]; try reflexivity; discriminate.
Qed.

Lemma js_split_colon_char c s acc :
  Ascii.eqb c ":" = false ->
  js_split_dcolon (String ":" (String c s)) acc = js_split_dcolon (String c s) (acc ++ ":").
Proof.
  intros H. destruct c as [[] [] [] [] [] [] [] []]; try reflexivity; discriminate.
Qed.

Lemma js_split_nonempty_aux s :
  (forall acc, js_split_dcolon s acc <> []) /\
  (forall c acc, js_split_dcolon (String c s) acc <> []).
Proof.
  induction s as [|c' s' [IH1 IH2]].
  - split; [discriminate|].
    intros c acc. destruct (Ascii.eqb c ":") eqn:E.
    + apply Ascii.eqb_eq in E; subst. discriminate.
    + rewrite js_split_char by exact E. discriminate.
  - split; [exact (IH2 c')|].
    intros c acc. destruct (Ascii.eqb c ":") eqn:E.
    + apply Ascii.eqb_eq in E; subst.
      destruct (Ascii.eqb c' ":") eqn:E'.
      * apply Ascii.eqb_eq in E'; subst. discriminate.
      * rewrite js_split_colon_char by exact E'. apply IH2.
    + rewrite js_split_char by exact E. apply IH2.
Qed.

Lemma js_split_nonempty s acc : js_split_dcolon s acc <> [].
Proof. apply js_split_nonempty_aux. Qed.



Lemma js_split_colon_free q rest acc :
  has_colon q = false ->
  js_split_dcolon (q ++ rest) acc = js_split_dcolon rest (acc ++ q).
Proof.
  revert acc. induction q as [|c q IH]; intros acc H; simpl in H.
  - now rewrite str_append_nil.
  - apply orb_false_elim in H as [Hc Hq].
    change (String c q ++ rest) with (String c (q ++ rest)).
    rewrite js_split_char by exact Hc. rewrite IH by exact Hq.
    now rewrite <- str_append_assoc.
Qed.

(** A link is treated as a search trigger exactly when its [href] starts
    with ["#TRIGGER_SEARCH::"]; for those, a query is always extracted (the
    [parts.length < 2] guard never fires), and any other link is left to the
    browser. *)
Theorem trigger_iff_prefix h :
  trigger_query (Some h) <> None <-> js_starts_with TRIGGER_PREFIX h = true.
Proof.
  unfold trigger_query.
  destruct (js_starts_with TRIGGER_PREFIX h) eqn:E.
  - apply js_starts_with_app in E as [r ->]. simpl.
    split; [reflexivity|intros _].
    destruct (js_split_dcolon r "") as [|p ps] eqn:Es;
      [exfalso; exact (js_split_nonempty r "" Es)|].
    simpl. discriminate.
  - destruct (negb (truthy h)); split; intros H; try discriminate; contradiction.
Qed.

(** Round trip with the link format: for a query without [':'] the handler
    places exactly that query in the input box, whether or not the link
    carries a [::specificity] suffix. *)
Theorem trigger_query_roundtrip q specificity :
  has_colon q = false ->
  trigger_query (Some (TRIGGER_PREFIX ++ q ++ "::" ++ specificity)) = Some q /\
  trigger_query (Some (TRIGGER_PREFIX ++ q)) = Some q.
Proof.
  intros Hq. unfold trigger_query. rewrite !js_starts_with_prefix.
  split; simpl.
  - rewrite (js_split_colon_free q (String ":" (String ":" specificity)) "") by exact Hq.
    reflexivity.
  - pose proof (js_split_colon_free q "" "" Hq) as E. rewrite str_append_nil in E.
    rewrite E. reflexivity.
Qed.

Lemma trigger_query_roundtrip_witness :
  has_colon "sound healing" = false /\
  trigger_query (Some (TRIGGER_PREFIX ++ "sound healing" ++ "::" ++ "Specific")) = Some "sound healing" /\
  trigger_query (Some (TRIGGER_PREFIX ++ "sound healing")) = Some "sound healing".
Proof.
  split; [reflexivity|]. apply trigger_query_roundtrip. reflexivity.
Defined.

Definition opt_str_eqb (a b : option string) : bool :=
  match a, b with
  | Some x, Some y => String.eqb x y
  | None, None => true
  | _, _ => false
  end.

Lemma opt_str_eqb_eq a b : opt_str_eqb a b = true -> a = b.
Proof.
  destruct a, b; simpl; intros H; try discriminate; auto.
  apply String.eqb_eq in H. congruence.
Qed.

Definition feb29_check (y : Z) : bool :=
  opt_str_eqb (derived_weekday y "February 29")
    (if is_leap y then Some (strftime_A (mkdate y 2 29)) else None).

Lemma feb29_all_years : forallb (fun n => feb29_check (1000 + Z.of_nat n)) (seq 0 9000) = true.
Proof. vm_compute. reflexivity. Qed.

(** A date without a year such as ["February 29"] is completed with the
    current year: it yields a weekday only when the current year is a leap
    year, and otherwise no weekday is derived (the date condition stays). *)
Theorem february_29_current_year now_year :
  (1000 <= now_year <= 9999)%Z ->
  derived_weekday now_year "February 29" =
    if is_leap now_year then Some (strftime_A (mkdate now_year 2 29)) else None.
Proof.
  intros Hy.
  pose proof feb29_all_years as H.
  rewrite forallb_forall in H.
  specialize (H (Z.to_nat (now_year - 1000))).
  rewrite Z2Nat.id in H by lia.
  replace (1000 + (now_year - 1000))%Z with now_year in H by lia.
  apply opt_str_eqb_eq, H, in_seq. split; [lia|].
  apply Nat2Z.inj_lt. rewrite Z2Nat.id by lia. simpl. lia.
Qed.

Lemma february_29_current_year_witness :
  (1000 <= 2026 <= 9999)%Z /\ derived_weekday 2026 "February 29" = None /\
  derived_weekday 2028 "February 29" = Some "Tuesday".
Proof.
  split; [lia|]. split.
  - exact (february_29_current_year 2026 ltac:(lia)).
  - rewrite (february_29_current_year 2028 ltac:(lia)). reflexivity.
Defined.

Lemma yielded_histories_shape_witness :
  In (turn [] "Music tonight?" "1. Jazz")
     (fst (streaming_chat (fun (_ _ _ : string) => @Ok unit tt)
             (fun _ => SEvent (TextDelta "1. Jazz") (SEvent (TextDelta " at Unity") SDone))
             "Music tonight?" [] (Some "s1"))) /\
  exists t, turn [] "Music tonight?" "1. Jazz" = turn [] "Music tonight?" t /\
    ((exists suf, t ++ suf =
        stream_text ((fun _ : list message =>
                        SEvent (TextDelta "1. Jazz") (SEvent (TextDelta " at Unity") SDone))
                       ([] ++ [mkmsg "user" "Music tonight?"])%list))
     \/ t = APOLOGY \/ exists e, t = error_message e).
Proof.
  assert (H : In (turn [] "Music tonight?" "1. Jazz")
     (fst (streaming_chat (fun (_ _ _ : string) => @Ok unit tt)
             (fun _ => SEvent (TextDelta "1. Jazz") (SEvent (TextDelta " at Unity") SDone))
             "Music tonight?" [] (Some "s1")))) by (simpl; left; reflexivity).
  split; [exact H|].
  exact (yielded_histories_shape _ _ "Music tonight?" [] (Some "s1") _ H).
Defined.
